(** * The cloudscale.ch floating IP module: model and properties

    A shallow embedding of [plugins/modules/floating_ip.py].  The module
    reads the floating IP named by the [ip] parameter through the
    cloudscale.ch API, compares what it found with the requested [state] and
    [server], and requests, releases or re-assigns the floating IP.

    Python dictionaries are finite maps from strings to JSON-like values,
    the attribute [self.info] and the requests handed to the API live in an
    explicit machine state, and the three ways a run can stop early
    ([exit_json], [fail_json], an uncaught exception) are outcomes of a
    small state-and-exit monad. *)

From Stdlib Require Import ZArith NArith Ascii String.
From stdpp Require Import gmap strings list fin_maps.

Set Warnings "-register-all".

Open Scope string_scope.

(** ** Values *)

(** What [from_json] can produce, and what a parameter can hold. *)
Inductive value : Type :=
  | VNone
  | VBool (b : bool)
  | VInt (n : Z)
  | VStr (s : string)
  | VList (l : list value)
  | VDict (d : gmap string value).

Abbreviation dict := (gmap string value).

(** Python exceptions raised by the operations the module uses. *)
Inductive exn : Type :=
  | KeyError (key : string)
  | TypeError
  | ValueError.

(** How a computation ends: with a value, or by leaving the module through
    [module.exit_json(changed=c, **info)], through [module.fail_json(msg=m)]
    or through an exception nobody catches.  The keyword arguments of
    [exit_json] are kept as the pair of [changed] and the record. *)
Inductive outcome (A : Type) : Type :=
  | Ret (a : A)
  | Exit (changed : bool) (record : dict)
  | Fail (msg : string)
  | Raise (e : exn).
Arguments Ret {A} a.
Arguments Exit {A} changed record.
Arguments Fail {A} msg.
Arguments Raise {A} e.

Definition outcome_bind {A B} (f : A → outcome B) (o : outcome A) : outcome B :=
  match o with
  | Ret a => f a
  | Exit c r => Exit c r
  | Fail m => Fail m
  | Raise e => Raise e
  end.

#[global] Instance outcome_ret : MRet outcome := λ A, @Ret A.
#[global] Instance outcome_mbind : MBind outcome := λ A B, @outcome_bind A B.

(** [d[k]] on a dictionary. *)
Definition getitem (d : dict) (k : string) : outcome value :=
  match d !! k with
  | Some v => Ret v
  | None => Raise (KeyError k)
  end.

(** [v[k]] with a string key on an arbitrary value: only a dictionary can be
    indexed by a string. *)
Definition subscript (v : value) (k : string) : outcome value :=
  match v with
  | VDict d => getitem d k
  | _ => Raise TypeError
  end.

(** Parameters that were not given are [None]. *)
Definition of_str (o : option string) : value :=
  match o with Some s => VStr s | None => VNone end.

Definition of_int (o : option Z) : value :=
  match o with Some n => VInt n | None => VNone end.

Definition of_dict (o : option dict) : value :=
  match o with Some d => VDict d | None => VNone end.

(** Truth value of a parameter: [None], the empty string and [0] are false. *)
Definition truthy_str (o : option string) : bool :=
  match o with
  | Some s => negb (String.eqb s "")
  | None => false
  end.

Definition truthy_int (o : option Z) : bool :=
  match o with
  | Some n => negb (n =? 0)%Z
  | None => false
  end.

(** Truth value of what [_get] returned: [None] and [{}] are false. *)
Definition truthy_resp (o : option dict) : bool :=
  match o with
  | Some d => negb (bool_decide (d = ∅))
  | None => false
  end.

(** [v == s] and [v == o] for a value against a string, or against a
    parameter that is a string or [None]. *)
Definition eq_str (v : value) (s : string) : bool :=
  match v with
  | VStr s' => String.eqb s' s
  | _ => false
  end.

Definition eq_opt_str (v : value) (o : option string) : bool :=
  match v, o with
  | VNone, None => true
  | VStr s', Some s => String.eqb s' s
  | _, _ => false
  end.

(** ['%s' % o] and ['...' + o] for a string parameter. *)
Definition format_s (o : option string) : string :=
  match o with Some s => s | None => "None" end.

Definition concat_str (prefix : string) (o : option string) : outcome string :=
  match o with
  | Some s => Ret (prefix ++ s)
  | None => Raise TypeError
  end.

(** ** Parameters *)

(** The two choices of the [state] parameter. *)
Inductive lifecycle : Type := present | absent.

Definition lifecycle_str (l : lifecycle) : string :=
  match l with present => "present" | absent => "absent" end.

(** [module.params], after argument parsing: [state] and [type] have
    defaults, everything else is optional. *)
Module P.
Record t : Type := Make {
  state : lifecycle;
  ip : option string;
  ip_version : option Z;
  server : option string;
  type : string;
  region : option string;
  prefix_length : option Z;
  reverse_ptr : option string;
  tags : option dict;
}.

End P.

(** ** Collaborators *)

(** [ipaddress.ip_network], composed with [str(_.network_address)]: the
    network address of a network literal, [None] where [ip_network] raises
    [ValueError]. *)
Class Ipaddress := ip_network : value → option string.

(** The transport of [AnsibleCloudscaleBase], over some state [W] of the
    remote service.  A request either fails (the base class then calls
    [fail_json] with a message) or answers; [_get] answers [None] when the
    resource does not exist. *)
Class CloudscaleBase (W : Type) := {
  _get : string → W → (string + option dict) * W;
  _post : string → dict → W → (string + dict) * W;
  _delete : string → W → (string + unit) * W;
}.

(** A request as the transport sees it. *)
Inductive call : Type :=
  | Get (url : string)
  | Post (url : string) (data : dict)
  | Delete (url : string).

Definition mutating (c : call) : bool :=
  match c with Get _ => false | _ => true end.

(** What a run of [main] does about the floating IP. *)
Module Action.
Inductive t : Type := noop | create | delete | update.

Definition is_noop (a : t) : bool :=
  match a with noop => true | _ => false end.
End Action.

(** ** The machine *)

(** The state a run threads: the remote service, the requests issued so far
    (oldest first) and the attribute [self.info]. *)
Record machine (W : Type) : Type := Machine {
  world : W;
  calls : list call;
  info : dict;
}.
Arguments Machine {W} world calls info.
Arguments world {W} m.
Arguments calls {W} m.
Arguments info {W} m.

Definition M (W A : Type) : Type := machine W → outcome A * machine W.

Definition M_bind {W A B} (f : A → M W B) (c : M W A) : M W B :=
  λ m, match c m with
       | (Ret a, m') => f a m'
       | (Exit ch r, m') => (Exit ch r, m')
       | (Fail msg, m') => (Fail msg, m')
       | (Raise e, m') => (Raise e, m')
       end.

#[global] Instance M_ret {W} : MRet (M W) := λ A a m, (Ret a, m).
#[global] Instance M_mbind {W} : MBind (M W) := λ A B, @M_bind W A B.

(** A pure computation inside a run. *)
Definition lift {W A} (o : outcome A) : M W A := λ m, (o, m).

Definition get_info {W} : M W dict := λ m, (Ret (info m), m).

Definition set_info {W} (i : dict) : M W unit :=
  λ m, (Ret tt, Machine (world m) (calls m) i).

Definition exit_json {W A} (changed : bool) (record : dict) : M W A :=
  lift (Exit changed record).

Definition fail_json {W A} (msg : string) : M W A := lift (Fail msg).

(** A request: it is logged, the service moves on, and a failure of the
    transport ends the run. *)
Definition request {W A} (c : call) (send : W → (string + A) * W) : M W A :=
  λ m, let '(r, w) := send (world m) in
       let m' := Machine w (calls m ++ [c]) (info m) in
       match r with
       | inl msg => (Fail msg, m')
       | inr a => (Ret a, m')
       end.

(** [AnsibleModule.fail_on_missing_params((name,))] for one parameter whose
    truth value is [given]. *)
Definition fail_on_missing_params {W} (name : string) (given : bool) : M W unit :=
  if given then mret tt
  else fail_json ("missing required arguments: " ++ name).

(** ** AnsibleCloudscaleFloatingIP *)

Section FloatingIP.
Context {W : Type} `{!CloudscaleBase W} `{!Ipaddress}.

Definition _resp2info (resp : dict) : outcome dict :=
  let resp := <["state" := VStr "present"]> resp in
  network ← getitem resp "network";
  match ip_network network with
  | None => Raise ValueError
  | Some address =>
      let resp := <["ip" := VStr address]> resp in
      server ← getitem resp "server";
      match server with
      | VNone => Ret resp
      | _ =>
          uuid ← subscript server "uuid";
          Ret (<["server" := uuid]> resp)
      end
  end.

Definition update_info (params : P.t) : M W unit :=
  url ← lift (concat_str "floating-ips/" (P.ip params));
  resp ← request (Get url) (_get url);
  match resp with
  | Some r =>
      if truthy_resp resp then
        i ← lift (_resp2info r);
        set_info i
      else
        set_info (<["state" := VStr "absent"]> {["ip" := of_str (P.ip params)]})
  | None =>
      set_info (<["state" := VStr "absent"]> {["ip" := of_str (P.ip params)]})
  end.

Definition __init__ (params : P.t) : M W unit :=
  set_info {["state" := VStr "absent"]};;
  if truthy_str (P.ip params) then update_info params else mret tt.

Definition request_data (params : P.t) : dict :=
  <["ip_version" := of_int (P.ip_version params)]>
  (<["server" := of_str (P.server params)]>
  (<["prefix_length" := of_int (P.prefix_length params)]>
  (<["reverse_ptr" := of_str (P.reverse_ptr params)]>
  (<["type" := VStr (P.type params)]>
  (<["region" := of_str (P.region params)]>
  {["tags" := of_dict (P.tags params)]}))))).

Definition request_floating_ip (params : P.t) : M W unit :=
  fail_on_missing_params "ip_version" (truthy_int (P.ip_version params));;
  let data := request_data params in
  resp ← request (Post "floating-ips" data) (_post "floating-ips" data);
  i ← lift (_resp2info resp);
  set_info i.

Definition release_floating_ip (params : P.t) : M W unit :=
  let url := "floating-ips/" ++ format_s (P.ip params) in
  request (Delete url) (_delete url);;
  i ← get_info;
  ip ← lift (getitem i "ip");
  set_info (<["state" := VStr "absent"]> {["ip" := ip]}).

Definition update_data (params : P.t) : dict :=
  <["server" := of_str (P.server params)]>
  {["tags" := of_dict (P.tags params)]}.

Definition update_floating_ip (params : P.t) : M W unit :=
  (if truthy_str (P.server params) then mret tt
   else fail_json "Missing required parameter to update a floating IP: server.");;
  let data := update_data params in
  let url := "floating-ips/" ++ format_s (P.ip params) in
  resp ← request (Post url data) (_post url data);
  i ← lift (_resp2info resp);
  set_info i.

(** [info['server'] if 'server' in info else None] *)
Definition server_of (i : dict) : value := default VNone (i !! "server").

(** The part of [main] after the object is built: read the current state
    and server off [info], answer at once in check mode, otherwise act. *)
Definition main_reconcile (check_mode : bool) (params : P.t) : M W unit :=
  let target_state := P.state params in
  let target_server := P.server params in
  i ← get_info;
  current_state ← lift (getitem i "state");
  let current_server := server_of i in
  (if check_mode then
     exit_json
       (negb (eq_str current_state (lifecycle_str target_state))
        || (eq_str current_state "present"
            && negb (eq_opt_str current_server target_server)))
       i
   else mret tt);;
  changed ←
    (if eq_str current_state "absent"
        && String.eqb (lifecycle_str target_state) "present" then
       request_floating_ip params;; mret true
     else if eq_str current_state "present"
             && String.eqb (lifecycle_str target_state) "absent" then
       release_floating_ip params;; mret true
     else if eq_str current_state "present"
             && negb (eq_opt_str current_server target_server) then
       update_floating_ip params;; mret true
     else mret false);
  i' ← get_info;
  exit_json changed i'.

(** [main]: the object is built, then the reconciliation runs.  The
    [ipaddress] library is there, so the check for it passes. *)
Definition main (check_mode : bool) (params : P.t) : M W unit :=
  __init__ params;;
  main_reconcile check_mode params.

(** *** The decision, named

    The [if]/[elif] chain of [main] as a function to the action it
    runs, and the body of each branch. *)
Definition select_action (current_state : value) (target_state : lifecycle)
    (current_server : value) (target_server : option string) : Action.t :=
  if eq_str current_state "absent"
     && String.eqb (lifecycle_str target_state) "present" then Action.create
  else if eq_str current_state "present"
          && String.eqb (lifecycle_str target_state) "absent" then Action.delete
  else if eq_str current_state "present"
          && negb (eq_opt_str current_server target_server) then Action.update
  else Action.noop.

Definition perform (a : Action.t) (params : P.t) : M W bool :=
  match a with
  | Action.create => request_floating_ip params;; mret true
  | Action.delete => release_floating_ip params;; mret true
  | Action.update => update_floating_ip params;; mret true
  | Action.noop => mret false
  end.

(** [current.assignedServer == desired.server] *)
Definition server_match (i : dict) (params : P.t) : bool :=
  eq_opt_str (server_of i) (P.server params).

(** The action [main] runs for these parameters on this current record. *)
Definition action_of (params : P.t) (i : dict) : Action.t :=
  select_action (default VNone (i !! "state")) (P.state params)
    (server_of i) (P.server params).

End FloatingIP.

(** ** Vocabulary of the properties *)

(** The decision table of the specification, row by row. *)
Definition decision_table (current desired : lifecycle) (server_match : bool)
    : Action.t :=
  match current, desired with
  | absent, absent => Action.noop
  | absent, present => Action.create
  | present, absent => Action.delete
  | present, present => if server_match then Action.noop else Action.update
  end.

(** The server of a record, read off the server field of a raw resource:
    no server stays [None], a reference gives its uuid, anything else has
    none. *)
Definition uuid_of (server : value) : option value :=
  match server with
  | VNone => Some VNone
  | VDict d => d !! "uuid"
  | _ => None
  end.

(** A server reference of a raw resource stands for this assignment. *)
Definition assigned (resp : dict) (o : option string) : Prop :=
  match o with
  | None => resp !! "server" = Some VNone
  | Some s => ∃ d, resp !! "server" = Some (VDict d) ∧ d !! "uuid" = Some (VStr s)
  end.




(** What [_resp2info] makes of a resource with this address and server. *)
Definition normalized (resp : dict) (address : string) (server : value) : dict :=
  <["server" := server]> (<["ip" := VStr address]>
    (<["state" := VStr "present"]> resp)).

(** The address [_resp2info] gives a raw resource. *)
Definition address_of `{!Ipaddress} (resp : dict) : option string :=
  v ← resp !! "network"; ip_network v.

(** What a request to the service leaves behind. *)
Definition after {W} (m : machine W) (w : W) (c : call) (i : dict) : machine W :=
  Machine w (calls m ++ [c]) i.

(** The end of [request_floating_ip] and [update_floating_ip]: the answer
    goes through the mapper into [info]. *)
Definition store {W} `{!Ipaddress} (m : machine W) (w : W) (c : call)
    (resp : dict) : outcome unit * machine W :=
  match _resp2info resp with
  | Ret i => (Ret tt, after m w c i)
  | Exit ch x => (Exit ch x, after m w c (info m))
  | Fail msg => (Fail msg, after m w c (info m))
  | Raise e => (Raise e, after m w c (info m))
  end.

(** The message of the failure for a parameter an action cannot do
    without. *)
Definition missing_message (a : Action.t) : string :=
  match a with
  | Action.create => "missing required arguments: ip_version"
  | _ => "Missing required parameter to update a floating IP: server."
  end.


(** The service assigns what it is asked to assign: the resource it answers
    a create or an update with refers to the server of the payload, or to
    none if the payload names none. *)
Definition assigns_as_asked `{!CloudscaleBase W} (w : W) : Prop :=
  ∀ url data resp w' o,
    _post url data w = (inr resp, w') →
    data !! "server" = Some (of_str o) →
    assigned resp o.

(** The service refused this request, with this message. *)
Definition refused `{!CloudscaleBase W} (w : W) (c : call) (msg : string)
    : Prop :=
  match c with
  | Get url => fst (_get url w) = inl msg
  | Post url data => fst (_post url data w) = inl msg
  | Delete url => fst (_delete url w) = inl msg
  end.

(** The records [main] hands to [exit_json]: a present one has an address
    and a server entry, an absent one is the bare state, alone or with the
    address that was asked for. *)
Definition reportable (i : dict) : Prop :=
  (i !! "state" = Some (VStr "present")
   ∧ (∃ a, i !! "ip" = Some (VStr a)) ∧ is_Some (i !! "server"))
  ∨ i = {["state" := VStr "absent"]}
  ∨ ∃ a, i = <["state" := VStr "absent"]> {["ip" := VStr a]}.


(** The machine at the start of [__init__], [info] reset. *)
Definition reset {W} (m : machine W) : machine W :=
  Machine (world m) (calls m) {["state" := VStr "absent"]}.

(** ** Collaborators to run the module against *)

(** *** Dotted-quad networks

    The IPv4 literals [a.b.c.d] and [a.b.c.d/n] with a decimal prefix
    length, read strictly (no host bits set), as [ip_network] reads them.
    Net masks, integers and IPv6 are left out: they are refused here. *)
Module IPv4.
Fixpoint split_on (sep : ascii) (s : string) : list string :=
  match s with
  | EmptyString => [EmptyString]
  | String c s' =>
      if Ascii.eqb c sep then EmptyString :: split_on sep s'
      else match split_on sep s' with
           | h :: t => String c h :: t
           | [] => [String c EmptyString]
           end
  end.

Definition digit (c : ascii) : option N :=
  let n := N_of_ascii c in
  if (48 <=? n)%N && (n <=? 57)%N then Some (n - 48)%N else None.

Fixpoint decimal_go (acc : N) (s : string) : option N :=
  match s with
  | EmptyString => Some acc
  | String c s' => d ← digit c; decimal_go (10 * acc + d)%N s'
  end.

Definition decimal (s : string) : option N :=
  match s with
  | EmptyString => None
  | _ => decimal_go 0 s
  end.

Definition leading_zero (s : string) : bool :=
  match s with
  | String "0" (String _ _) => true
  | _ => false
  end.

Definition octet (s : string) : option N :=
  if (String.length s <=? 3)%nat && negb (leading_zero s) then
    n ← decimal s; if (n <=? 255)%N then Some n else None
  else None.

Definition address (s : string) : option N :=
  match split_on "." s with
  | [a; b; c; d] =>
      a ← octet a; b ← octet b; c ← octet c; d ← octet d;
      Some (((a * 256 + b) * 256 + c) * 256 + d)%N
  | _ => None
  end.

Definition prefixlen (s : string) : option N :=
  n ← decimal s; if (n <=? 32)%N then Some n else None.

Definition digit_char (n : N) : ascii := ascii_of_N (48 + n).

Definition octet_str (n : N) : string :=
  if (n <? 10)%N then String (digit_char n) EmptyString
  else if (n <? 100)%N then
    String (digit_char (n / 10)) (String (digit_char (n mod 10)) EmptyString)
  else
    String (digit_char (n / 100))
      (String (digit_char (n / 10 mod 10))
         (String (digit_char (n mod 10)) EmptyString)).

Definition address_str (n : N) : string :=
  octet_str (n / 16777216) ++ "." ++ octet_str (n / 65536 mod 256) ++ "."
  ++ octet_str (n / 256 mod 256) ++ "." ++ octet_str (n mod 256).

Definition network (a : N) (len : N) : option string :=
  if (N.land a (2 ^ (32 - len) - 1) =? 0)%N then Some (address_str a)
  else None.

Definition ip_network (v : value) : option string :=
  match v with
  | VStr s =>
      match split_on "/" s with
      | [a] => a ← address a; network a 32
      | [a; n] => a ← address a; n ← prefixlen n; network a n
      | _ => None
      end
  | _ => None
  end.
End IPv4.

#[global] Instance ipv4_ipaddress : Ipaddress := IPv4.ip_network.

(** *** A service in memory

    Floating IPs by address.  A new one gets the address [fresh] if that is
    free; a server is stored as a reference carrying its uuid. *)
Module Service.
Fixpoint strip_prefix (p s : string) : option string :=
  match p, s with
  | EmptyString, _ => Some s
  | String a p', String b s' =>
      if Ascii.eqb a b then strip_prefix p' s' else None
  | _, _ => None
  end.

Definition fresh : string := "192.0.2.123".

Definition server_ref (v : value) : value :=
  match v with
  | VStr s =>
      VDict (<["href" := VStr ("https://api.cloudscale.ch/v1/servers/" ++ s)]>
             {["uuid" := VStr s]})
  | _ => VNone
  end.

Definition assign (data resource : dict) : dict :=
  <["server" := server_ref (default VNone (data !! "server"))]>
  (<["tags" := default VNone (data !! "tags")]> resource).

Definition get (url : string) (w : gmap string dict)
    : (string + option dict) * gmap string dict :=
  match strip_prefix "floating-ips/" url with
  | Some a => (inr (w !! a), w)
  | None => (inl "bad request", w)
  end.

Definition post (url : string) (data : dict) (w : gmap string dict)
    : (string + dict) * gmap string dict :=
  if String.eqb url "floating-ips" then
    match w !! fresh with
    | Some _ => (inl "no address left", w)
    | None =>
        let r := assign data {["network" := VStr (fresh ++ "/32")]} in
        (inr r, <[fresh := r]> w)
    end
  else
    match strip_prefix "floating-ips/" url with
    | Some a =>
        match w !! a with
        | Some r => let r' := assign data r in (inr r', <[a := r']> w)
        | None => (inl "not found", w)
        end
    | None => (inl "bad request", w)
    end.

Definition delete (url : string) (w : gmap string dict)
    : (string + unit) * gmap string dict :=
  match strip_prefix "floating-ips/" url with
  | Some a =>
      match w !! a with
      | Some _ => (inr tt, base.delete a w)
      | None => (inl "not found", w)
      end
  | None => (inl "bad request", w)
  end.
End Service.

#[global] Instance service_base : CloudscaleBase (gmap string dict) :=
  {| _get := Service.get; _post := Service.post; _delete := Service.delete |}.

(** *** Sample runs

    One floating IP, assigned to server [srv-1], and a few requests about
    it.  The current records are the ones [__init__] builds. *)
Module Sample.
Definition resource : dict :=
  <["network" := VStr "192.0.2.123/32"]>
  (<["server" := Service.server_ref (VStr "srv-1")]>
  (<["ip_version" := VInt 4]>
  {["tags" := VDict ∅]})).

Definition service : gmap string dict := {["192.0.2.123" := resource]}.

Definition params (st : lifecycle) (a : option string) (v : option Z)
    (srv : option string) : P.t :=
  P.Make st a v srv "regional" None None None None.

Definition move : P.t := params present (Some "192.0.2.123") None (Some "srv-2").
Definition release : P.t := params absent (Some "192.0.2.123") None None.
Definition acquire : P.t := params present None (Some 4%Z) (Some "srv-1").
Definition acquire_unversioned : P.t := params present (Some "192.0.2.77") None None.

Definition boot (w : gmap string dict) : machine (gmap string dict) :=
  Machine w [] ∅.

(** The machine once the object is built. *)
Definition started (p : P.t) (w : gmap string dict) : machine (gmap string dict) :=
  snd (__init__ p (boot w)).




(** The machine once a real run has ended. *)
Definition ended (p : P.t) (w : gmap string dict) : machine (gmap string dict) :=
  snd (main_reconcile false p (started p w)).
End Sample.

(** ** Running the module *)

Example ipv4_single_address :
  IPv4.ip_network (VStr "192.0.2.123/32") = Some "192.0.2.123".
Proof. reflexivity. Qed.

Example ipv4_network_address :
  IPv4.ip_network (VStr "10.255.0.0/16") = Some "10.255.0.0".
Proof. reflexivity. Qed.

Example ipv4_host_bits_refused :
  IPv4.ip_network (VStr "192.0.2.123/24") = None.
Proof. reflexivity. Qed.

Example ipv4_no_cidr_refused :
  IPv4.ip_network (VStr "floating") = None.
Proof. reflexivity. Qed.

Ltac unfold_run :=
  unfold main, main_reconcile, __init__, update_info, perform,
    request_floating_ip, release_floating_ip, update_floating_ip,
    fail_on_missing_params, exit_json, fail_json, request, get_info,
    set_info, lift, getitem, mbind, mret, M_mbind, M_bind, M_ret,
    outcome_mbind, outcome_bind, outcome_ret in *.

Section Runs.
Context {W : Type} `{!CloudscaleBase W} `{!Ipaddress}.
Implicit Types (m : machine W) (p : P.t) (i r : dict).

(** Check mode answers from the current record and touches nothing. *)
Lemma run_check p m cs :
  info m !! "state" = Some cs →
  main_reconcile true p m =
    (Exit (negb (eq_str cs (lifecycle_str (P.state p)))
           || (eq_str cs "present"
               && negb (eq_opt_str (server_of (info m)) (P.server p))))
          (info m), m).
Proof. intros Hs. unfold_run. simpl. by rewrite Hs. Qed.

(** A real run performs the selected action and reports the record that
    action left in [info]. *)
Lemma run_real p m cs :
  info m !! "state" = Some cs →
  main_reconcile false p m =
    (changed ← perform (select_action cs (P.state p) (server_of (info m))
                          (P.server p)) p;
     i' ← get_info; exit_json changed i') m.
Proof.
  intros Hs. unfold main_reconcile, select_action.
  unfold mbind at 1 2 3. unfold M_mbind, M_bind at 1 2 3.
  unfold get_info at 1, lift at 1, getitem. rewrite Hs. simpl.
  repeat case_match; reflexivity.
Qed.
End Runs.

(** ** The decision *)

Section Decision.
Context {W : Type} `{!CloudscaleBase W} `{!Ipaddress}.
Implicit Types (m : machine W) (p : P.t) (i r : dict).

Lemma select_action_table (cur tgt : lifecycle) csv tsv :
  select_action (VStr (lifecycle_str cur)) tgt csv tsv =
    decision_table cur tgt (eq_opt_str csv tsv).
Proof.
  unfold select_action.
  destruct cur, tgt; simpl; try reflexivity. by destruct (eq_opt_str csv tsv).
Qed.

Lemma action_of_table p i (cur : lifecycle) :
  i !! "state" = Some (VStr (lifecycle_str cur)) →
  action_of p i = decision_table cur (P.state p) (server_match i p).
Proof. intros Hs. unfold action_of. rewrite Hs. apply select_action_table. Qed.

(** In check mode [changed] says whether an action is due. *)
Lemma check_changed_table (cur tgt : lifecycle) csv tsv :
  negb (eq_str (VStr (lifecycle_str cur)) (lifecycle_str tgt))
  || (eq_str (VStr (lifecycle_str cur)) "present" && negb (eq_opt_str csv tsv))
  = negb (Action.is_noop (decision_table cur tgt (eq_opt_str csv tsv))).
Proof. destruct cur, tgt; simpl; try reflexivity. by destruct (eq_opt_str csv tsv). Qed.

End Decision.


(** ** Check mode *)

Section CheckMode.
Context {W : Type} `{!CloudscaleBase W} `{!Ipaddress}.
Implicit Types (m : machine W) (p : P.t) (i r : dict).

Lemma perform_changed a p m c m' :
  perform a p m = (Ret c, m') → c = negb (Action.is_noop a).
Proof.
  destruct a; unfold perform; simpl.
  - by intros [= <- _].
  - unfold mbind, M_mbind, M_bind.
    destruct (request_floating_ip p m) as [[] ?]; by intros [= <- _].
  - unfold mbind, M_mbind, M_bind.
    destruct (release_floating_ip p m) as [[] ?]; by intros [= <- _].
  - unfold mbind, M_mbind, M_bind.
    destruct (update_floating_ip p m) as [[] ?]; by intros [= <- _].
Qed.

(** The mapper returns or raises. *)
Lemma resp2info_ret_or_raise resp :
  (∃ i, _resp2info resp = Ret i) ∨ (∃ e, _resp2info resp = Raise e).
Proof.
  unfold _resp2info, subscript, getitem, mbind, outcome_mbind, outcome_bind.
  repeat case_match; simplify_eq/=; eauto.
Qed.

(** No action leaves through [exit_json] on its own. *)
Lemma perform_no_exit a p m c out m' : perform a p m ≠ (Exit c out, m').
Proof.
  destruct a; unfold_run; simpl; try done.
  - destruct (truthy_int _); simpl; [|done].
    destruct (_post _ _ _) as [[?|r] ?]; simpl; [done|].
    by destruct (resp2info_ret_or_raise r) as [[? ->]|[? ->]].
  - destruct (_delete _ _) as [[?|[]] ?]; simpl; [done|].
    by destruct (info m !! "ip").
  - destruct (truthy_str _); simpl; [|done].
    destruct (_post _ _ _) as [[?|r] ?]; simpl; [done|].
    by destruct (resp2info_ret_or_raise r) as [[? ->]|[? ->]].
Qed.

(** A real run ends well exactly when its action does, and then reports
    whether it acted and what the action left in [info]. *)
Lemma run_real_exit p m cs c out m' :
  info m !! "state" = Some cs →
  main_reconcile false p m = (Exit c out, m') →
  perform (select_action cs (P.state p) (server_of (info m)) (P.server p))
    p m = (Ret c, m')
  ∧ c = negb (Action.is_noop
                (select_action cs (P.state p) (server_of (info m)) (P.server p)))
  ∧ out = info m'.
Proof.
  intros Hs. rewrite (run_real _ _ _ Hs).
  unfold mbind at 1. unfold M_mbind, M_bind at 1.
  destruct (perform _ p m) as [[ch| | |] m1] eqn:Hp; try by intros [= ].
  - unfold mbind, M_mbind, M_bind, get_info, exit_json, lift.
    intros [= <- <- <-]. split; [done|]. split; [|done].
    by apply perform_changed in Hp.
  - by apply perform_no_exit in Hp.
Qed.

Lemma action_of_state p i cs :
  i !! "state" = Some cs →
  action_of p i = select_action cs (P.state p) (server_of i) (P.server p).
Proof. intros Hs. unfold action_of. by rewrite Hs. Qed.

(** Check mode in terms of the action that is due. *)
Lemma run_check_action p m (cur : lifecycle) :
  info m !! "state" = Some (VStr (lifecycle_str cur)) →
  main_reconcile true p m
    = (Exit (negb (Action.is_noop (action_of p (info m)))) (info m), m).
Proof.
  intros Hs. rewrite (run_check _ _ _ Hs), (action_of_table p _ _ Hs).
  unfold server_match. by rewrite check_changed_table.
Qed.

(** A real run with nothing to do. *)
Lemma run_real_noop p m cs :
  info m !! "state" = Some cs →
  action_of p (info m) = Action.noop →
  main_reconcile false p m = (Exit false (info m), m).
Proof.
  intros Hs Ha. rewrite (run_real _ _ _ Hs), <- (action_of_state _ _ _ Hs), Ha.
  reflexivity.
Qed.

End CheckMode.



(** ** The mapper *)

Section Mapper.
Context `{!Ipaddress}.
Implicit Types (resp i : dict).

Lemma resp2info_unfold resp :
  _resp2info resp =
    match resp !! "network" with
    | None => Raise (KeyError "network")
    | Some v =>
        match ip_network v with
        | None => Raise ValueError
        | Some a =>
            match resp !! "server" with
            | None => Raise (KeyError "server")
            | Some VNone => Ret (normalized resp a VNone)
            | Some (VDict d) =>
                match d !! "uuid" with
                | Some u => Ret (normalized resp a u)
                | None => Raise (KeyError "uuid")
                end
            | Some _ => Raise TypeError
            end
        end
    end.
Proof.
  unfold _resp2info, normalized, subscript, getitem, mbind, outcome_mbind,
    outcome_bind.
  rewrite lookup_insert_ne by done.
  destruct (resp !! "network") as [v|]; [|done].
  destruct (ip_network v) as [a|]; [|done].
  rewrite !lookup_insert_ne by done.
  destruct (resp !! "server") as [[| | | | |d]|] eqn:Hs; try done.
  - f_equal. symmetry. apply insert_id. by rewrite !lookup_insert_ne.
  - by destruct (d !! "uuid").
Qed.

Lemma resp2info_ret resp i :
  _resp2info resp = Ret i ↔
  ∃ v a s u, resp !! "network" = Some v ∧ ip_network v = Some a
             ∧ resp !! "server" = Some s ∧ uuid_of s = Some u
             ∧ i = normalized resp a u.
Proof.
  rewrite resp2info_unfold. split.
  - intros Hr. repeat case_match; simplify_eq/=; eauto 10.
  - intros (v & a & s & u & -> & -> & -> & Hu & ->).
    destruct s; simplify_eq/=; try done. by rewrite Hu.
Qed.

Lemma normalized_lookup resp a u :
  normalized resp a u !! "state" = Some (VStr "present")
  ∧ normalized resp a u !! "ip" = Some (VStr a)
  ∧ normalized resp a u !! "server" = Some u
  ∧ ∀ k, k ≠ "state" → k ≠ "ip" → k ≠ "server" →
         normalized resp a u !! k = resp !! k.
Proof.
  unfold normalized. repeat split.
  - rewrite !lookup_insert_ne by done. apply lookup_insert_eq.
  - rewrite lookup_insert_ne by done. apply lookup_insert_eq.
  - apply lookup_insert_eq.
  - intros k ???. by rewrite !lookup_insert_ne.
Qed.

(** C7.  A raw resource whose network [ip_network] reads, with address
    [a], and whose server field is [None] or a reference with a uuid, is
    mapped to a record that is present, has [a] as its [ip], has the bare
    uuid as its server ([None] when no server is attached) and keeps every
    other field of the resource. *)
Theorem resp2info_present resp v a s u :
  resp !! "network" = Some v →
  ip_network v = Some a →
  resp !! "server" = Some s →
  uuid_of s = Some u →
  ∃ i, _resp2info resp = Ret i
       ∧ i !! "state" = Some (VStr (lifecycle_str present))
       ∧ i !! "ip" = Some (VStr a)
       ∧ i !! "server" = Some u
       ∧ (s = VNone → server_of i = VNone)
       ∧ ∀ k, k ≠ "state" → k ≠ "ip" → k ≠ "server" → i !! k = resp !! k.
Proof.
  intros Hn Ha Hs Hu. exists (normalized resp a u).
  destruct (normalized_lookup resp a u) as (H1 & H2 & H3 & H4).
  split; [apply resp2info_ret; eauto 10|].
  repeat split; try done.
  intros ->. unfold server_of. rewrite H3. by simplify_eq/=.
Qed.

End Mapper.

Lemma resp2info_present_witness :
  Sample.resource !! "network" = Some (VStr "192.0.2.123/32")
  ∧ ip_network (VStr "192.0.2.123/32") = Some "192.0.2.123"
  ∧ Sample.resource !! "server" = Some (Service.server_ref (VStr "srv-1"))
  ∧ uuid_of (Service.server_ref (VStr "srv-1")) = Some (VStr "srv-1")
  ∧ ∃ i, _resp2info Sample.resource = Ret i
         ∧ i !! "state" = Some (VStr (lifecycle_str present))
         ∧ i !! "ip" = Some (VStr "192.0.2.123")
         ∧ i !! "server" = Some (VStr "srv-1")
         ∧ (Service.server_ref (VStr "srv-1") = VNone → server_of i = VNone)
         ∧ ∀ k, k ≠ "state" → k ≠ "ip" → k ≠ "server" →
                i !! k = Sample.resource !! k.
Proof.
  repeat (split; [vm_compute; reflexivity|]).
  apply (resp2info_present Sample.resource (VStr "192.0.2.123/32")
           "192.0.2.123" (Service.server_ref (VStr "srv-1")) (VStr "srv-1"));
    vm_compute; reflexivity.
Defined.


(** ** The three actions, step by step *)

Section Actions.
Context {W : Type} `{!CloudscaleBase W} `{!Ipaddress}.
Implicit Types (m : machine W) (p : P.t) (i r : dict).

Lemma request_floating_ip_unfold p m :
  request_floating_ip p m =
    if truthy_int (P.ip_version p) then
      match _post "floating-ips" (request_data p) (world m) with
      | (inl msg, w) =>
          (Fail msg, after m w (Post "floating-ips" (request_data p)) (info m))
      | (inr resp, w) =>
          store m w (Post "floating-ips" (request_data p)) resp
      end
    else (Fail "missing required arguments: ip_version", m).
Proof.
  unfold store, after. unfold_run. destruct (truthy_int _); simpl; [|done].
  destruct (_post _ _ _) as [[msg|resp] w]; simpl; [done|].
  by destruct (_resp2info resp).
Qed.

Lemma update_floating_ip_unfold p m :
  update_floating_ip p m =
    if truthy_str (P.server p) then
      match _post ("floating-ips/" ++ format_s (P.ip p)) (update_data p)
              (world m) with
      | (inl msg, w) =>
          (Fail msg,
           after m w (Post ("floating-ips/" ++ format_s (P.ip p))
                        (update_data p)) (info m))
      | (inr resp, w) =>
          store m w (Post ("floating-ips/" ++ format_s (P.ip p))
                       (update_data p)) resp
      end
    else (Fail "Missing required parameter to update a floating IP: server.", m).
Proof.
  unfold store, after. unfold_run. destruct (truthy_str _); simpl; [|done].
  destruct (_post _ _ _) as [[msg|resp] w]; simpl; [done|].
  by destruct (_resp2info resp).
Qed.

Lemma release_floating_ip_unfold p m :
  release_floating_ip p m =
    match _delete ("floating-ips/" ++ format_s (P.ip p)) (world m) with
    | (inl msg, w) =>
        (Fail msg,
         after m w (Delete ("floating-ips/" ++ format_s (P.ip p))) (info m))
    | (inr _, w) =>
        match info m !! "ip" with
        | Some a =>
            (Ret tt,
             after m w (Delete ("floating-ips/" ++ format_s (P.ip p)))
               (<["state" := VStr "absent"]> {["ip" := a]}))
        | None =>
            (Raise (KeyError "ip"),
             after m w (Delete ("floating-ips/" ++ format_s (P.ip p))) (info m))
        end
    end.
Proof.
  unfold after. unfold_run.
  destruct (_delete _ _) as [[msg|[]] w]; simpl; [done|].
  by destruct (info m !! "ip").
Qed.

(** What [store] returns, when it returns. *)
Lemma store_ret m w c resp m' :
  store m w c resp = (Ret tt, m') →
  ∃ v a s u, resp !! "network" = Some v ∧ ip_network v = Some a
             ∧ resp !! "server" = Some s ∧ uuid_of s = Some u
             ∧ m' = after m w c (normalized resp a u).
Proof.
  unfold store. destruct (_resp2info resp) as [i| | |] eqn:Hr; try done.
  intros [= <-]. apply resp2info_ret in Hr as (v & a & s & u & ? & ? & ? & ? & ->).
  eauto 10.
Qed.

(** An action that fails for a missing parameter has sent nothing. *)
Lemma missing_parameter_fails p m :
  (truthy_int (P.ip_version p) = false →
   perform Action.create p m
     = (Fail "missing required arguments: ip_version", m))
  ∧ (truthy_str (P.server p) = false →
     perform Action.update p m
       = (Fail "Missing required parameter to update a floating IP: server.", m)).
Proof.
  split; intros Hp; unfold perform; unfold mbind, M_mbind, M_bind.
  - by rewrite request_floating_ip_unfold, Hp.
  - by rewrite update_floating_ip_unfold, Hp.
Qed.

(** What [__init__] leaves in [info]: a record that is absent, or the
    mapper's record of the resource the service answered with. *)
Lemma init_lifecycle p m m' :
  __init__ p m = (Ret tt, m') →
  ∃ cur : lifecycle,
    info m' !! "state" = Some (VStr (lifecycle_str cur))
    ∧ (cur = present →
       ∃ a s, P.ip p = Some a
              ∧ (calls m' = calls m ++ [Get ("floating-ips/" ++ a)])%list
              ∧ ∃ resp a' u, fst (_get ("floating-ips/" ++ a) (world m))
                               = inr (Some resp)
                             ∧ resp !! "server" = Some s ∧ uuid_of s = Some u
                             ∧ info m' = normalized resp a' u).
Proof.
  unfold __init__, update_info.
  unfold mbind, M_mbind, M_bind, mret, M_ret, set_info, lift, request; simpl.
  destruct (truthy_str (P.ip p)).
  - destruct (P.ip p) as [a|]; simpl; [|done].
    destruct (_get _ _) as [[msg|[resp|]] w] eqn:Hg; simpl; [done| |].
    + destruct (bool_decide (resp = ∅)); simpl.
      * intros [= <-]. exists absent. split; [apply lookup_insert_eq|done].
      * destruct (_resp2info resp) as [i| | |] eqn:Hr; simpl; try done.
        intros [= <-]. apply resp2info_ret in Hr
          as (v & a' & s & u & ? & ? & ? & ? & ->).
        exists present. split; [apply normalized_lookup|]. intros _.
        exists a, s. do 2 (split; [done|]). exists resp, a', u.
        by rewrite Hg.
    + intros [= <-]. exists absent. split; [apply lookup_insert_eq|done].
  - intros [= <-]. exists absent. split; [apply lookup_singleton_eq|done].
Qed.

(** The one request [__init__] makes is the read of the floating IP, when
    an [ip] was given. *)
Lemma init_calls p m :
  calls (snd (__init__ p m))
    = (calls m
       ++ if truthy_str (P.ip p) then
            [Get ("floating-ips/" ++ format_s (P.ip p))]
          else [])%list.
Proof.
  unfold __init__, update_info.
  unfold mbind, M_mbind, M_bind, mret, M_ret, set_info, lift, request; simpl.
  destruct (truthy_str (P.ip p)) eqn:Ht; [|by rewrite app_nil_r].
  destruct (P.ip p) as [a|]; simpl; [|done].
  destruct (_get _ _) as [[msg|[resp|]] w]; simpl; [done| |done].
  destruct (bool_decide (resp = ∅)); simpl; [done|].
  by destruct (_resp2info resp).
Qed.

(** A service that knows the floating IP under the address asked for: the
    current record is present and carries that very address. *)
Lemma init_present p m a resp w s u :
  P.ip p = Some a →
  a ≠ "" →
  _get ("floating-ips/" ++ a) (world m) = (inr (Some resp), w) →
  address_of resp = Some a →
  resp !! "server" = Some s →
  uuid_of s = Some u →
  __init__ p m
    = (Ret tt, after m w (Get ("floating-ips/" ++ a)) (normalized resp a u)).
Proof.
  intros Hip Ha Hg Haddr Hs Hu.
  assert (Hr : _resp2info resp = Ret (normalized resp a u)).
  { unfold address_of in Haddr.
    destruct (resp !! "network") as [v|] eqn:Hn; [|done]. simpl in Haddr.
    apply resp2info_ret. by exists v, a, s, u. }
  assert (He : bool_decide (resp = ∅) = false).
  { apply bool_decide_eq_false. intros ->. by rewrite lookup_empty in Hs. }
  unfold __init__, update_info, after.
  unfold mbind, M_mbind, M_bind, mret, M_ret, set_info, lift, request; simpl.
  rewrite Hip. simpl.
  destruct (String.eqb a "") eqn:Hz; [by apply String.eqb_eq in Hz|].
  simpl. rewrite Hg. simpl. by rewrite He, Hr.
Qed.

(** [main] is [__init__] and then the reconciliation. *)
Lemma main_unfold check p m :
  main check p m =
    match __init__ p m with
    | (Ret _, m') => main_reconcile check p m'
    | (Exit c x, m') => (Exit c x, m')
    | (Fail msg, m') => (Fail msg, m')
    | (Raise e, m') => (Raise e, m')
    end.
Proof. reflexivity. Qed.
End Actions.

(** ** Missing parameters *)

Section Missing.
Context {W : Type} `{!CloudscaleBase W} `{!Ipaddress}.
Implicit Types (m : machine W) (p : P.t) (i r : dict).

Lemma run_missing p m cs :
  info m !! "state" = Some cs →
  (action_of p (info m) = Action.create ∧ truthy_int (P.ip_version p) = false)
  ∨ (action_of p (info m) = Action.update ∧ truthy_str (P.server p) = false) →
  main_reconcile false p m = (Fail (missing_message (action_of p (info m))), m).
Proof.
  intros Hs Ha. rewrite (run_real _ _ _ Hs), <- (action_of_state _ _ _ Hs).
  unfold mbind at 1. unfold M_mbind, M_bind at 1.
  destruct (missing_parameter_fails p m) as [Hc Hu].
  destruct Ha as [[-> Hv]|[-> Hv]]; [by rewrite Hc|by rewrite Hu].
Qed.

(** C4.  When the action is create and no [ip_version] was given, or the
    action is update and no [server] was given, a real run fails with the
    message about the missing parameter, and it does so with the machine as
    it found it: no request was sent and [info] is untouched. *)
Theorem missing_parameter_stops_run p m cs :
  info m !! "state" = Some cs →
  (action_of p (info m) = Action.create ∧ P.ip_version p = None)
  ∨ (action_of p (info m) = Action.update ∧ P.server p = None) →
  main_reconcile false p m = (Fail (missing_message (action_of p (info m))), m).
Proof.
  intros Hs Ha. apply (run_missing _ _ _ Hs).
  destruct Ha as [[Ha Hv]|[Ha Hv]]; rewrite Hv; [by left|by right].
Qed.

End Missing.

Lemma missing_parameter_stops_run_witness :
  info (Sample.started Sample.acquire_unversioned ∅) !! "state"
    = Some (VStr "absent")
  ∧ ((action_of Sample.acquire_unversioned
        (info (Sample.started Sample.acquire_unversioned ∅)) = Action.create
      ∧ P.ip_version Sample.acquire_unversioned = None)
     ∨ (action_of Sample.acquire_unversioned
          (info (Sample.started Sample.acquire_unversioned ∅)) = Action.update
        ∧ P.server Sample.acquire_unversioned = None))
  ∧ main_reconcile false Sample.acquire_unversioned
      (Sample.started Sample.acquire_unversioned ∅)
    = (Fail (missing_message
               (action_of Sample.acquire_unversioned
                  (info (Sample.started Sample.acquire_unversioned ∅)))),
       Sample.started Sample.acquire_unversioned ∅).
Proof.
  split; [vm_compute; reflexivity|].
  split; [left; split; vm_compute; reflexivity|].
  apply (missing_parameter_stops_run Sample.acquire_unversioned
           (Sample.started Sample.acquire_unversioned ∅) (VStr "absent")).
  - vm_compute; reflexivity.
  - left; split; vm_compute; reflexivity.
Defined.


(** ** What the actions send and report *)

Section Requests.
Context {W : Type} `{!CloudscaleBase W} `{!Ipaddress}.
Implicit Types (m : machine W) (p : P.t) (i r : dict).

Lemma update_data_fields p :
  dom (update_data p) = {["server"; "tags"]}
  ∧ update_data p !! "server" = Some (of_str (P.server p))
  ∧ update_data p !! "tags" = Some (of_dict (P.tags p))
  ∧ ∀ k, k ∈ ["ip_version"; "type"; "region"; "prefix_length"] →
         update_data p !! k = None.
Proof.
  unfold update_data. split; [|split; [|split]].
  - by rewrite dom_insert_L, dom_singleton_L.
  - apply lookup_insert_eq.
  - rewrite lookup_insert_ne by done. apply lookup_singleton_eq.
  - intros k Hk. rewrite !elem_of_cons in Hk.
    destruct Hk as [->|[->|[->|[->|Hk]]]]; [by simplify_map_eq..|].
    by apply elem_of_nil in Hk.
Qed.

(** The requests a run of [update_floating_ip] adds. *)
Lemma update_floating_ip_calls p m :
  calls (snd (update_floating_ip p m))
    = (calls m
       ++ if truthy_str (P.server p) then
            [Post ("floating-ips/" ++ format_s (P.ip p)) (update_data p)]
          else [])%list.
Proof.
  rewrite update_floating_ip_unfold.
  destruct (truthy_str _); [|by rewrite app_nil_r].
  destruct (_post _ _ _) as [[msg|resp] w]; [done|].
  unfold store. by destruct (_resp2info resp).
Qed.

(** C5.  When the action is update, a real run sends at most one request:
    none if no server was given, and otherwise one to the floating IP's own
    URL whose payload has exactly the fields [server] and [tags], holding
    the parameters of those names, and so none of [ip_version], [type],
    [region] and [prefix_length]. *)
Theorem update_sends_server_and_tags p m cs :
  info m !! "state" = Some cs →
  action_of p (info m) = Action.update →
  calls (snd (main_reconcile false p m))
    = (calls m
       ++ if truthy_str (P.server p) then
            [Post ("floating-ips/" ++ format_s (P.ip p)) (update_data p)]
          else [])%list
  ∧ dom (update_data p) = {["server"; "tags"]}
  ∧ update_data p !! "server" = Some (of_str (P.server p))
  ∧ update_data p !! "tags" = Some (of_dict (P.tags p))
  ∧ ∀ k, k ∈ ["ip_version"; "type"; "region"; "prefix_length"] →
         update_data p !! k = None.
Proof.
  intros Hs Ha. split; [|apply update_data_fields].
  rewrite (run_real _ _ _ Hs), <- (action_of_state _ _ _ Hs), Ha.
  rewrite <- update_floating_ip_calls.
  unfold perform, mbind, M_mbind, M_bind, mret, M_ret, get_info, exit_json,
    lift.
  by destruct (update_floating_ip p m) as [[[]| | |] m1].
Qed.

End Requests.

Lemma update_sends_server_and_tags_witness :
  info (Sample.started Sample.move Sample.service) !! "state"
    = Some (VStr "present")
  ∧ action_of Sample.move (info (Sample.started Sample.move Sample.service))
    = Action.update
  ∧ calls (snd (main_reconcile false Sample.move
                  (Sample.started Sample.move Sample.service)))
    = [Get "floating-ips/192.0.2.123";
       Post "floating-ips/192.0.2.123"
         (<["server" := VStr "srv-2"]> {["tags" := VNone]})]
  ∧ dom (update_data Sample.move) = {["server"; "tags"]}.
Proof.
  split; [vm_compute; reflexivity|]. split; [vm_compute; reflexivity|].
  destruct (update_sends_server_and_tags Sample.move
              (Sample.started Sample.move Sample.service) (VStr "present"))
    as (Hc & Hd & _); [vm_compute; reflexivity..|].
  split; [|exact Hd]. rewrite Hc. vm_compute; reflexivity.
Defined.


(** ** Identity and idempotence *)

Section Identity.
Context {W : Type} `{!CloudscaleBase W} `{!Ipaddress}.
Implicit Types (m : machine W) (p : P.t) (i r : dict).

Lemma perform_ret a p m c m' :
  perform a p m = (Ret c, m') →
  match a with
  | Action.noop => m' = m
  | Action.create => request_floating_ip p m = (Ret tt, m')
  | Action.delete => release_floating_ip p m = (Ret tt, m')
  | Action.update => update_floating_ip p m = (Ret tt, m')
  end.
Proof.
  destruct a; unfold perform, mbind, M_mbind, M_bind, mret, M_ret.
  - by intros [= _ <-].
  - destruct (request_floating_ip p m) as [[[]| | |] ?]; by intros [= _ <-].
  - destruct (release_floating_ip p m) as [[[]| | |] ?]; by intros [= _ <-].
  - destruct (update_floating_ip p m) as [[[]| | |] ?]; by intros [= _ <-].
Qed.

(** What an update leaves in [info], when it goes through. *)
Lemma update_floating_ip_ret p m m' :
  update_floating_ip p m = (Ret tt, m') →
  ∃ resp w a s u,
    _post ("floating-ips/" ++ format_s (P.ip p)) (update_data p) (world m)
      = (inr resp, w)
    ∧ address_of resp = Some a
    ∧ resp !! "server" = Some s ∧ uuid_of s = Some u
    ∧ info m' = normalized resp a u.
Proof.
  rewrite update_floating_ip_unfold. destruct (truthy_str _); [|done].
  destruct (_post _ _ _) as [[msg|resp] w] eqn:Hp; [done|].
  intros (v & a & s & u & Hn & Ha & Hs & Hu & ->)%store_ret.
  exists resp, w, a, s, u. unfold address_of. rewrite Hn. by simpl.
Qed.

Lemma request_floating_ip_ret p m m' :
  request_floating_ip p m = (Ret tt, m') →
  ∃ resp w a s u,
    _post "floating-ips" (request_data p) (world m) = (inr resp, w)
    ∧ address_of resp = Some a
    ∧ resp !! "server" = Some s ∧ uuid_of s = Some u
    ∧ info m' = normalized resp a u.
Proof.
  rewrite request_floating_ip_unfold. destruct (truthy_int _); [|done].
  destruct (_post _ _ _) as [[msg|resp] w] eqn:Hp; [done|].
  intros (v & a & s & u & Hn & Ha & Hs & Hu & ->)%store_ret.
  exists resp, w, a, s, u. unfold address_of. rewrite Hn. by simpl.
Qed.

Lemma release_floating_ip_ret p m m' :
  release_floating_ip p m = (Ret tt, m') →
  ∃ a, info m !! "ip" = Some a
       ∧ info m' = <["state" := VStr "absent"]> {["ip" := a]}.
Proof.
  rewrite release_floating_ip_unfold.
  destruct (_delete _ _) as [[msg|[]] w]; [done|].
  destruct (info m !! "ip") as [a|]; [|done]. intros [= <-]. eauto.
Qed.

(** C8.  The floating IP exists under the address [a], the action is
    update or no-op, and the service answers an update of this floating IP
    with a resource of that same address: the record a real run reports has
    [a] as its [ip]. *)
Theorem identifier_preserved p m a c out m' :
  info m !! "state" = Some (VStr "present") →
  info m !! "ip" = Some (VStr a) →
  action_of p (info m) = Action.update ∨ action_of p (info m) = Action.noop →
  (∀ resp w,
     _post ("floating-ips/" ++ format_s (P.ip p)) (update_data p) (world m)
       = (inr resp, w) →
     address_of resp = Some a) →
  main_reconcile false p m = (Exit c out, m') →
  out !! "ip" = Some (VStr a).
Proof.
  intros Hs Hi Ha Hsvc Hr.
  destruct (run_real_exit _ _ _ _ _ _ Hs Hr) as (Hp & _ & ->).
  rewrite <- (action_of_state _ _ _ Hs) in Hp. apply perform_ret in Hp.
  destruct Ha as [Ha|Ha]; rewrite Ha in Hp.
  - apply update_floating_ip_ret in Hp
      as (resp & w & a' & s & u & Hpost & Haddr & _ & _ & ->).
    rewrite (Hsvc _ _ Hpost) in Haddr. injection Haddr as <-.
    apply normalized_lookup.
  - by subst m'.
Qed.
End Identity.

Lemma identifier_preserved_witness :
  info (Sample.started Sample.move Sample.service) !! "state"
    = Some (VStr "present")
  ∧ info (Sample.started Sample.move Sample.service) !! "ip"
    = Some (VStr "192.0.2.123")
  ∧ (action_of Sample.move (info (Sample.started Sample.move Sample.service))
       = Action.update
     ∨ action_of Sample.move (info (Sample.started Sample.move Sample.service))
       = Action.noop)
  ∧ main_reconcile false Sample.move
      (Sample.started Sample.move Sample.service)
    = (Exit true (info (Sample.ended Sample.move Sample.service)),
       Sample.ended Sample.move Sample.service)
  ∧ info (Sample.ended Sample.move Sample.service) !! "ip"
    = Some (VStr "192.0.2.123").
Proof.
  split; [vm_compute; reflexivity|]. split; [vm_compute; reflexivity|].
  split; [left; vm_compute; reflexivity|].
  split; [vm_compute; reflexivity|].
  apply (identifier_preserved Sample.move
           (Sample.started Sample.move Sample.service) "192.0.2.123" true
           (info (Sample.ended Sample.move Sample.service))
           (Sample.ended Sample.move Sample.service)).
  - vm_compute; reflexivity.
  - vm_compute; reflexivity.
  - left; vm_compute; reflexivity.
  - intros resp w Hpost. vm_compute in Hpost. injection Hpost as <- _.
    vm_compute; reflexivity.
  - vm_compute; reflexivity.
Defined.

Section Idempotence.
Context {W : Type} `{!CloudscaleBase W} `{!Ipaddress}.
Implicit Types (m : machine W) (p : P.t) (i r : dict).

(** A resource that refers to the requested server maps to a record whose
    server is the requested one. *)
Lemma assigned_server_match resp a s u p :
  resp !! "server" = Some s →
  uuid_of s = Some u →
  assigned resp (P.server p) →
  server_match (normalized resp a u) p = true.
Proof.
  intros Hs Hu Has. unfold server_match, server_of.
  destruct (normalized_lookup resp a u) as (_ & _ & -> & _). simpl.
  unfold assigned in Has. destruct (P.server p) as [x|].
  - destruct Has as (d & Hd & Hx). rewrite Hs in Hd. injection Hd as ->.
    simpl in Hu. rewrite Hx in Hu. injection Hu as <-. simpl.
    apply String.eqb_refl.
  - rewrite Hs in Has. injection Has as ->. by injection Hu as <-.
Qed.

Lemma request_data_server p :
  request_data p !! "server" = Some (of_str (P.server p)).
Proof.
  unfold request_data. rewrite lookup_insert_ne by done. apply lookup_insert_eq.
Qed.

(** The record a real run reports is one on which the same request finds
    nothing to do. *)
Lemma settled p m (cur : lifecycle) c out m1 :
  info m !! "state" = Some (VStr (lifecycle_str cur)) →
  assigns_as_asked (world m) →
  main_reconcile false p m = (Exit c out, m1) →
  ∃ cur' : lifecycle,
    out !! "state" = Some (VStr (lifecycle_str cur'))
    ∧ action_of p out = Action.noop.
Proof.
  intros Hs Hsvc Hr.
  destruct (run_real_exit _ _ _ _ _ _ Hs Hr) as (Hp & _ & ->).
  rewrite <- (action_of_state _ _ _ Hs) in Hp.
  pose proof (action_of_table p _ _ Hs) as Ht. apply perform_ret in Hp.
  destruct (action_of p (info m)) eqn:Ha.
  - subst m1. exists cur. by rewrite Ha.
  - assert (P.state p = present) as Hst
      by (destruct cur, (P.state p); simpl in Ht; by try destruct (server_match _ _)).
    apply request_floating_ip_ret in Hp
      as (resp & w & a & s & u & Hpost & _ & Hsrv & Hu & ->).
    destruct (normalized_lookup resp a u) as (Hn & _).
    exists present. split; [exact Hn|].
    rewrite (action_of_table p _ present Hn), Hst. simpl.
    rewrite (assigned_server_match _ _ _ _ _ Hsrv Hu); [done|].
    exact (Hsvc _ _ _ _ _ Hpost (request_data_server p)).
  - assert (P.state p = absent) as Hst
      by (destruct cur, (P.state p); simpl in Ht; by try destruct (server_match _ _)).
    apply release_floating_ip_ret in Hp as (a & _ & ->).
    assert (Hn : (<["state" := VStr "absent"]> {["ip" := a]} : dict) !! "state"
                 = Some (VStr (lifecycle_str absent))) by apply lookup_insert_eq.
    exists absent. split; [exact Hn|].
    by rewrite (action_of_table p _ absent Hn), Hst.
  - assert (P.state p = present) as Hst
      by (destruct cur, (P.state p); simpl in Ht; by try destruct (server_match _ _)).
    apply update_floating_ip_ret in Hp
      as (resp & w & a & s & u & Hpost & _ & Hsrv & Hu & ->).
    destruct (normalized_lookup resp a u) as (Hn & _).
    exists present. split; [exact Hn|].
    rewrite (action_of_table p _ present Hn), Hst. simpl.
    rewrite (assigned_server_match _ _ _ _ _ Hsrv Hu); [done|].
    apply (Hsvc _ _ _ _ _ Hpost). apply update_data_fields.
Qed.

(** C3.  After a real run that ended well, against a service that assigns
    what it is asked to assign, a second run with the same parameters on
    the record the first one reported finds nothing to do: it reports
    [changed = false] and that same record, sends nothing, and does so in
    check mode as well. *)
Theorem second_run_changes_nothing p m (cur : lifecycle) c out m1 :
  info m !! "state" = Some (VStr (lifecycle_str cur)) →
  assigns_as_asked (world m) →
  main_reconcile false p m = (Exit c out, m1) →
  ∀ check m2, info m2 = out →
              main_reconcile check p m2 = (Exit false out, m2).
Proof.
  intros Hs Hsvc Hr check m2 <-.
  destruct (settled _ _ _ _ _ _ Hs Hsvc Hr) as (cur' & Hs' & Ha).
  destruct check.
  - by rewrite (run_check_action _ _ _ Hs'), Ha.
  - by apply (run_real_noop _ _ _ Hs').
Qed.
End Idempotence.

(** The service in memory assigns what it is asked to assign. *)
Lemma service_assign_assigned data resource o :
  data !! "server" = Some (of_str o) →
  assigned (Service.assign data resource) o.
Proof.
  intros Hd. unfold Service.assign, assigned. rewrite Hd. simpl.
  destruct o as [s|]; simpl.
  - eexists. split; [apply lookup_insert_eq|].
    rewrite lookup_insert_ne by done. apply lookup_singleton_eq.
  - apply lookup_insert_eq.
Qed.

Lemma service_assigns_as_asked (w : gmap string dict) : assigns_as_asked w.
Proof.
  intros url data resp w' o Hpost Hd. simpl in Hpost.
  unfold Service.post in Hpost.
  destruct (String.eqb url "floating-ips").
  - destruct (w !! Service.fresh); [done|]. injection Hpost as <- _.
    by apply service_assign_assigned.
  - destruct (Service.strip_prefix _ url) as [a|]; [|done].
    destruct (w !! a); [|done]. injection Hpost as <- _.
    by apply service_assign_assigned.
Qed.

Lemma second_run_changes_nothing_witness :
  info (Sample.started Sample.move Sample.service) !! "state"
    = Some (VStr (lifecycle_str present))
  ∧ assigns_as_asked (world (Sample.started Sample.move Sample.service))
  ∧ main_reconcile false Sample.move
      (Sample.started Sample.move Sample.service)
    = (Exit true (info (Sample.ended Sample.move Sample.service)),
       Sample.ended Sample.move Sample.service)
  ∧ main_reconcile false Sample.move (Sample.ended Sample.move Sample.service)
    = (Exit false (info (Sample.ended Sample.move Sample.service)),
       Sample.ended Sample.move Sample.service).
Proof.
  split; [vm_compute; reflexivity|]. split; [apply service_assigns_as_asked|].
  split; [vm_compute; reflexivity|].
  apply (second_run_changes_nothing Sample.move
           (Sample.started Sample.move Sample.service) present true
           (info (Sample.ended Sample.move Sample.service))
           (Sample.ended Sample.move Sample.service)).
  - vm_compute; reflexivity.
  - apply service_assigns_as_asked.
  - vm_compute; reflexivity.
  - reflexivity.
Defined.

(** ** Building the object *)

Section Init.
Context {W : Type} `{!CloudscaleBase W} `{!Ipaddress}.
Implicit Types (m : machine W) (p : P.t) (i r : dict).

Lemma truthy_str_some o :
  truthy_str o = true → ∃ a, o = Some a ∧ a ≠ "".
Proof.
  destruct o as [a|]; [|done]. simpl. intros Ht. exists a. split; [done|].
  intros ->. done.
Qed.

(** [__init__], case by case. *)
Lemma init_unfold p m :
  __init__ p m =
    if truthy_str (P.ip p) then
      match _get ("floating-ips/" ++ format_s (P.ip p)) (world m) with
      | (inl msg, w) =>
          (Fail msg,
           after (reset m) w (Get ("floating-ips/" ++ format_s (P.ip p)))
             {["state" := VStr "absent"]})
      | (inr (Some resp), w) =>
          if bool_decide (resp = ∅) then
            (Ret tt,
             after (reset m) w (Get ("floating-ips/" ++ format_s (P.ip p)))
               (<["state" := VStr "absent"]> {["ip" := of_str (P.ip p)]}))
          else
            store (reset m) w (Get ("floating-ips/" ++ format_s (P.ip p))) resp
      | (inr None, w) =>
          (Ret tt,
           after (reset m) w (Get ("floating-ips/" ++ format_s (P.ip p)))
             (<["state" := VStr "absent"]> {["ip" := of_str (P.ip p)]}))
      end
    else (Ret tt, reset m).
Proof.
  unfold __init__, update_info, store, after, reset.
  unfold mbind, M_mbind, M_bind, mret, M_ret, set_info, lift, request; simpl.
  destruct (truthy_str (P.ip p)) eqn:Ht; [|done].
  apply truthy_str_some in Ht as (a & -> & _). simpl.
  destruct (_get _ _) as [[msg|[resp|]] w]; simpl; [done| |done].
  destruct (bool_decide (resp = ∅)); simpl; [done|].
  by destruct (_resp2info resp).
Qed.
(** The requests an action adds. *)
Lemma perform_calls a p m :
  calls (snd (perform a p m))
    = (calls m
       ++ match a with
          | Action.noop => []
          | Action.create =>
              if truthy_int (P.ip_version p) then
                [Post "floating-ips" (request_data p)]
              else []
          | Action.delete => [Delete ("floating-ips/" ++ format_s (P.ip p))]
          | Action.update =>
              if truthy_str (P.server p) then
                [Post ("floating-ips/" ++ format_s (P.ip p)) (update_data p)]
              else []
          end)%list.
Proof.
  destruct a; unfold perform, mbind, M_mbind, M_bind, mret, M_ret.
  - by rewrite app_nil_r.
  - rewrite request_floating_ip_unfold.
    destruct (truthy_int _); [|by rewrite app_nil_r].
    destruct (_post _ _ _) as [[msg|resp] w]; [done|].
    unfold store. by destruct (_resp2info resp).
  - rewrite release_floating_ip_unfold.
    destruct (_delete _ _) as [[msg|[]] w]; [done|].
    by destruct (info m !! "ip").
  - rewrite update_floating_ip_unfold.
    destruct (truthy_str _); [|by rewrite app_nil_r].
    destruct (_post _ _ _) as [[msg|resp] w]; [done|].
    unfold store. by destruct (_resp2info resp).
Qed.

(** Reporting adds no request. *)
Lemma report_calls a p m :
  calls (snd ((changed ← perform a p; i' ← get_info; exit_json changed i'
               : M W unit) m))
    = calls (snd (perform a p m)).
Proof.
  unfold mbind, M_mbind, M_bind, get_info, exit_json, lift.
  by destruct (perform a p m) as [[c| | |] m1].
Qed.

(** X1.  No [ip] (none, or the empty string) and the floating IP is to be
    absent: in check mode as in a real run, [main] sends nothing and exits
    with [changed = false] and the record of the bare state absent. *)
Theorem main_without_ip_absent check p m :
  truthy_str (P.ip p) = false →
  P.state p = absent →
  main check p m = (Exit false {["state" := VStr "absent"]}, reset m).
Proof.
  intros Hip Hst. rewrite main_unfold, init_unfold, Hip.
  assert (Hs : info (reset m) !! "state" = Some (VStr (lifecycle_str absent)))
    by apply lookup_singleton_eq.
  assert (Ha : action_of p (info (reset m)) = Action.noop)
    by by rewrite (action_of_table _ _ _ Hs), Hst.
  destruct check.
  - by rewrite (run_check_action _ _ _ Hs), Ha.
  - by rewrite (run_real_noop _ _ _ Hs Ha).
Qed.

(** X2.  No [ip] and the floating IP is to be present: whatever the service
    holds, [main] reads nothing and takes the create path.  Check mode
    reports a change; a real run with an [ip_version] sends exactly one
    request, the post of a new floating IP. *)
Theorem main_without_ip_present p m :
  truthy_str (P.ip p) = false →
  P.state p = present →
  main true p m = (Exit true {["state" := VStr "absent"]}, reset m)
  ∧ main false p m
    = (changed ← perform Action.create p; i' ← get_info; exit_json changed i')
        (reset m)
  ∧ (truthy_int (P.ip_version p) = true →
     calls (snd (main false p m))
       = (calls m ++ [Post "floating-ips" (request_data p)])%list).
Proof.
  intros Hip Hst.
  assert (Hs : info (reset m) !! "state" = Some (VStr (lifecycle_str absent)))
    by apply lookup_singleton_eq.
  assert (Ha : action_of p (info (reset m)) = Action.create)
    by by rewrite (action_of_table _ _ _ Hs), Hst.
  assert (Hr : main false p m
    = (changed ← perform Action.create p; i' ← get_info; exit_json changed i')
        (reset m)).
  { rewrite main_unfold, init_unfold, Hip, (run_real _ _ _ Hs).
    by rewrite <- (action_of_state _ _ _ Hs), Ha. }
  split; [|split; [exact Hr|]].
  - rewrite main_unfold, init_unfold, Hip.
    by rewrite (run_check_action _ _ _ Hs), Ha.
  - intros Hv. by rewrite Hr, report_calls, perform_calls, Hv.
Qed.

(** X3.  An [ip] was given and the service answers the read with nothing
    ([None] or the empty object): the current record is absent and echoes
    the address that was asked for.  If the floating IP is to be absent,
    [main] exits with [changed = false] and that record, the read being its
    only request; if it is to be present, the action is create. *)
Theorem main_not_found p m a (ans : option dict) w :
  P.ip p = Some a →
  a ≠ "" →
  _get ("floating-ips/" ++ a) (world m) = (inr ans, w) →
  truthy_resp ans = false →
  __init__ p m
    = (Ret tt,
       Machine w (calls m ++ [Get ("floating-ips/" ++ a)])
         (<["state" := VStr "absent"]> {["ip" := VStr a]}))
  ∧ (P.state p = absent →
     ∀ check,
       main check p m
         = (Exit false (<["state" := VStr "absent"]> {["ip" := VStr a]}),
            Machine w (calls m ++ [Get ("floating-ips/" ++ a)])
              (<["state" := VStr "absent"]> {["ip" := VStr a]})))
  ∧ (P.state p = present →
     action_of p (<["state" := VStr "absent"]> {["ip" := VStr a]})
       = Action.create).
Proof.
  intros Hip Ha Hg Hr.
  assert (Hi : __init__ p m
    = (Ret tt,
       Machine w (calls m ++ [Get ("floating-ips/" ++ a)])
         (<["state" := VStr "absent"]> {["ip" := VStr a]}))).
  { rewrite init_unfold, Hip. simpl.
    destruct (String.eqb a "") eqn:Hz; [by apply String.eqb_eq in Hz|].
    simpl. rewrite Hg. destruct ans as [resp|]; [|done].
    simpl in Hr. apply negb_false_iff in Hr. by rewrite Hr. }
  assert (Hs : ∀ p', (<["state" := VStr "absent"]> ({["ip" := VStr a]} : dict))
                     !! "state" = Some (VStr (lifecycle_str absent)))
    by (intros _; apply lookup_insert_eq).
  split; [exact Hi|]. split.
  - intros Hst check. rewrite main_unfold, Hi.
    set (m1 := Machine w _ _).
    assert (Hs1 : info m1 !! "state" = Some (VStr (lifecycle_str absent)))
      by apply (Hs p).
    assert (Hn : action_of p (info m1) = Action.noop)
      by by rewrite (action_of_table _ _ _ Hs1), Hst.
    destruct check.
    + by rewrite (run_check_action _ _ _ Hs1), Hn.
    + by rewrite (run_real_noop _ _ _ Hs1 Hn).
  - intros Hst. by rewrite (action_of_table _ _ _ (Hs p)), Hst.
Qed.
End Init.

Lemma main_without_ip_absent_witness :
  truthy_str (P.ip (Sample.params absent (Some "") None None)) = false
  ∧ P.state (Sample.params absent (Some "") None None) = absent
  ∧ main false (Sample.params absent (Some "") None None)
      (Sample.boot Sample.service)
    = (Exit false {["state" := VStr "absent"]},
       reset (Sample.boot Sample.service)).
Proof.
  split; [reflexivity|]. split; [reflexivity|].
  apply (main_without_ip_absent false
           (Sample.params absent (Some "") None None)
           (Sample.boot Sample.service)); reflexivity.
Defined.

Lemma main_without_ip_present_witness :
  truthy_str (P.ip Sample.acquire) = false
  ∧ P.state Sample.acquire = present
  ∧ main true Sample.acquire (Sample.boot Sample.service)
    = (Exit true {["state" := VStr "absent"]},
       reset (Sample.boot Sample.service)).
Proof.
  split; [reflexivity|]. split; [reflexivity|].
  refine (proj1 (main_without_ip_present Sample.acquire
                   (Sample.boot Sample.service) _ _)); reflexivity.
Defined.

Lemma main_not_found_witness :
  P.ip (Sample.params absent (Some "192.0.2.77") None None) = Some "192.0.2.77"
  ∧ "192.0.2.77" ≠ ""
  ∧ _get ("floating-ips/" ++ "192.0.2.77") (world (Sample.boot Sample.service))
    = (inr None, Sample.service)
  ∧ truthy_resp None = false
  ∧ __init__ (Sample.params absent (Some "192.0.2.77") None None)
      (Sample.boot Sample.service)
    = (Ret tt,
       Machine Sample.service [Get ("floating-ips/" ++ "192.0.2.77")]
         (<["state" := VStr "absent"]> {["ip" := VStr "192.0.2.77"]})).
Proof.
  split; [reflexivity|]. split; [discriminate|].
  split; [vm_compute; reflexivity|]. split; [reflexivity|].
  refine (proj1 (main_not_found
                   (Sample.params absent (Some "192.0.2.77") None None)
                   (Sample.boot Sample.service) "192.0.2.77" None
                   Sample.service _ _ _ _));
    [reflexivity|discriminate|vm_compute; reflexivity|reflexivity].
Defined.

(** ** The requests of a run *)

Section Discipline.
Context {W : Type} `{!CloudscaleBase W} `{!Ipaddress}.
Implicit Types (m : machine W) (p : P.t) (i r : dict).

(** The reconciliation without a state to read. *)
Lemma run_without_state check p m :
  info m !! "state" = None →
  main_reconcile check p m = (Raise (KeyError "state"), m).
Proof. intros Hs. unfold_run. simpl. by rewrite Hs. Qed.

(** The reconciliation adds at most one request, a mutating one, and none
    in check mode. *)
Lemma reconcile_calls check p m :
  ∃ l, calls (snd (main_reconcile check p m)) = (calls m ++ l)%list
       ∧ (List.length l ≤ 1)%nat
       ∧ Forall (λ c, mutating c = true) l
       ∧ (check = true → l = []).
Proof.
  destruct (info m !! "state") as [cs|] eqn:Hs.
  - destruct check.
    + exists []. rewrite (run_check _ _ _ Hs), app_nil_r.
      simpl. repeat split; [lia|constructor].
    + rewrite (run_real _ _ _ Hs), report_calls, perform_calls.
      eexists. split; [reflexivity|].
      split; [|split; [|done]];
        repeat case_match; simpl; repeat constructor; lia.
  - exists []. rewrite (run_without_state _ _ _ Hs), app_nil_r.
    simpl. repeat split; [lia|constructor].
Qed.

(** X4.  Whatever the parameters and the service, a run of [main] sends at
    most two requests: first the read of the floating IP, if an [ip] was
    given, then at most one mutating request, and in check mode none. *)
Theorem main_requests check p m :
  ∃ l, calls (snd (main check p m))
         = (calls m
            ++ (if truthy_str (P.ip p) then
                  [Get ("floating-ips/" ++ format_s (P.ip p))]
                else [])
            ++ l)%list
       ∧ (List.length l ≤ 1)%nat
       ∧ Forall (λ c, mutating c = true) l
       ∧ (check = true → l = []).
Proof.
  rewrite main_unfold. pose proof (init_calls p m) as Hc.
  destruct (__init__ p m) as [[[]| | |] m1]; simpl in Hc.
  - destruct (reconcile_calls check p m1) as (l & Hl & ?).
    exists l. by rewrite Hl, Hc, <- app_assoc.
  - exists []. rewrite app_nil_r. simpl. repeat split; [done|lia|constructor].
  - exists []. rewrite app_nil_r. simpl. repeat split; [done|lia|constructor].
  - exists []. rewrite app_nil_r. simpl. repeat split; [done|lia|constructor].
Qed.
End Discipline.

(** ** Failures and answers *)

Section Outcomes.
Context {W : Type} `{!CloudscaleBase W} `{!Ipaddress}.
Implicit Types (m : machine W) (p : P.t) (i r : dict).

(** The mapper never leaves through [fail_json]. *)
Lemma store_no_fail m w c resp msg m' : store m w c resp ≠ (Fail msg, m').
Proof.
  unfold store. by destruct (resp2info_ret_or_raise resp) as [[? ->]|[? ->]].
Qed.

(** An action fails for a parameter it misses, having sent nothing, or
    because the service refused its request. *)
Lemma perform_fail a p m msg m' :
  perform a p m = (Fail msg, m') →
  (m' = m ∧ msg = missing_message a)
  ∨ ∃ c, refused (world m) c msg ∧ mutating c = true
         ∧ calls m' = (calls m ++ [c])%list ∧ info m' = info m.
Proof.
  destruct a; unfold perform, mbind, M_mbind, M_bind, mret, M_ret.
  - done.
  - rewrite request_floating_ip_unfold. destruct (truthy_int _).
    + destruct (_post _ _ _) as [[msg'|resp] w] eqn:Hp.
      * intros [= <- <-]. right. eexists (Post _ _). simpl. by rewrite Hp.
      * destruct (store m w _ resp) as [[[]| | |] ?] eqn:Hst; try done.
        intros [= <- <-]. by apply store_no_fail in Hst.
    + intros [= <- <-]. by left.
  - rewrite release_floating_ip_unfold.
    destruct (_delete _ _) as [[msg'|[]] w] eqn:Hd.
    + intros [= <- <-]. right. eexists (Delete _). simpl. by rewrite Hd.
    + by destruct (info m !! "ip").
  - rewrite update_floating_ip_unfold. destruct (truthy_str _).
    + destruct (_post _ _ _) as [[msg'|resp] w] eqn:Hp.
      * intros [= <- <-]. right. eexists (Post _ _). simpl. by rewrite Hp.
      * destruct (store m w _ resp) as [[[]| | |] ?] eqn:Hst; try done.
        intros [= <- <-]. by apply store_no_fail in Hst.
    + intros [= <- <-]. by left.
Qed.

(** X5.  A reconciliation that ends in [fail_json] does so in one of two
    ways: for the parameter its action misses, with the machine as it
    found it, or with the very message of the service, which refused the one
    mutating request sent; either way [info] is what it was. *)
Theorem reconcile_failure p m msg m' :
  main_reconcile false p m = (Fail msg, m') →
  (m' = m ∧ msg = missing_message (action_of p (info m)))
  ∨ ∃ c, refused (world m) c msg ∧ mutating c = true
         ∧ calls m' = (calls m ++ [c])%list ∧ info m' = info m.
Proof.
  destruct (info m !! "state") as [cs|] eqn:Hs;
    [|by rewrite (run_without_state _ _ _ Hs)].
  rewrite (run_real _ _ _ Hs), <- (action_of_state _ _ _ Hs).
  unfold mbind at 1. unfold M_mbind, M_bind at 1.
  destruct (perform _ p m) as [[c| | |] m1] eqn:Hp; try done.
  intros [= <- <-]. by apply perform_fail in Hp.
Qed.

Lemma request_data_fields p :
  dom (request_data p)
    = {["ip_version"; "server"; "prefix_length"; "reverse_ptr"; "type";
        "region"; "tags"]}
  ∧ request_data p !! "ip" = None
  ∧ request_data p !! "ip_version" = Some (of_int (P.ip_version p))
  ∧ request_data p !! "tags" = Some (of_dict (P.tags p)).
Proof.
  unfold request_data. split; [|split; [|split]].
  - rewrite !dom_insert_L, dom_singleton_L. set_solver.
  - by simplify_map_eq.
  - by simplify_map_eq.
  - by simplify_map_eq.
Qed.

(** X6.  When the action is create, a real run sends at most one request:
    none without an [ip_version], otherwise one post to the collection.
    Its payload has the seven fields of a new floating IP, the version a
    non-zero integer, and never an [ip]: the address of the new floating IP
    is the service's to choose, even when an [ip] was given. *)
Theorem create_sends_parameters p m cs :
  info m !! "state" = Some cs →
  action_of p (info m) = Action.create →
  calls (snd (main_reconcile false p m))
    = (calls m
       ++ if truthy_int (P.ip_version p) then
            [Post "floating-ips" (request_data p)]
          else [])%list
  ∧ dom (request_data p)
    = {["ip_version"; "server"; "prefix_length"; "reverse_ptr"; "type";
        "region"; "tags"]}
  ∧ request_data p !! "ip" = None
  ∧ (truthy_int (P.ip_version p) = true →
     ∃ n, request_data p !! "ip_version" = Some (VInt n) ∧ n ≠ 0%Z).
Proof.
  intros Hs Ha. destruct (request_data_fields p) as (Hd & Hi & Hv & _).
  split; [|split; [exact Hd|split; [exact Hi|]]].
  - rewrite (run_real _ _ _ Hs), <- (action_of_state _ _ _ Hs), Ha.
    by rewrite report_calls, perform_calls.
  - rewrite Hv. destruct (P.ip_version p) as [n|]; [|done]. simpl.
    intros Hn. exists n. split; [done|]. intros ->. done.
Qed.
End Outcomes.

Lemma reconcile_failure_witness :
  main_reconcile false Sample.acquire
    (Sample.started Sample.acquire Sample.service)
  = (Fail "no address left", Sample.ended Sample.acquire Sample.service)
  ∧ ((Sample.ended Sample.acquire Sample.service
        = Sample.started Sample.acquire Sample.service
      ∧ "no address left"
        = missing_message
            (action_of Sample.acquire
               (info (Sample.started Sample.acquire Sample.service))))
     ∨ ∃ c, refused (world (Sample.started Sample.acquire Sample.service)) c
              "no address left"
            ∧ mutating c = true
            ∧ calls (Sample.ended Sample.acquire Sample.service)
              = (calls (Sample.started Sample.acquire Sample.service) ++ [c])%list
            ∧ info (Sample.ended Sample.acquire Sample.service)
              = info (Sample.started Sample.acquire Sample.service)).
Proof.
  split; [vm_compute; reflexivity|].
  apply (reconcile_failure Sample.acquire
           (Sample.started Sample.acquire Sample.service)).
  vm_compute; reflexivity.
Defined.

Lemma create_sends_parameters_witness :
  info (Sample.started Sample.acquire ∅) !! "state" = Some (VStr "absent")
  ∧ action_of Sample.acquire (info (Sample.started Sample.acquire ∅))
    = Action.create
  ∧ calls (snd (main_reconcile false Sample.acquire
                  (Sample.started Sample.acquire ∅)))
    = (calls (Sample.started Sample.acquire ∅)
       ++ if truthy_int (P.ip_version Sample.acquire) then
            [Post "floating-ips" (request_data Sample.acquire)]
          else [])%list.
Proof.
  split; [vm_compute; reflexivity|]. split; [vm_compute; reflexivity|].
  refine (proj1 (create_sends_parameters Sample.acquire
                   (Sample.started Sample.acquire ∅) (VStr "absent") _ _));
    vm_compute; reflexivity.
Defined.

(** ** An action that goes through *)

Section Success.
Context {W : Type} `{!CloudscaleBase W} `{!Ipaddress}.
Implicit Types (m : machine W) (p : P.t) (i r : dict).




(** X9.  A record the mapper made cannot, in general, be mapped again.
    With a server attached its server entry is the bare uuid, a string, and
    indexing it raises [TypeError]; without a server the mapper gives the
    same record back. *)
Theorem resp2info_again resp v a s u :
  resp !! "network" = Some v →
  ip_network v = Some a →
  resp !! "server" = Some s →
  uuid_of s = Some u →
  _resp2info resp = Ret (normalized resp a u)
  ∧ (u = VNone →
     _resp2info (normalized resp a u) = Ret (normalized resp a u))
  ∧ (∀ x, u = VStr x → _resp2info (normalized resp a u) = Raise TypeError).
Proof.
  intros Hn Ha Hs Hu.
  destruct (normalized_lookup resp a u) as (_ & _ & Hsrv & Hk).
  assert (Hn' : normalized resp a u !! "network" = Some v)
    by by rewrite Hk.
  split; [apply resp2info_ret; by exists v, a, s, u|]. split.
  - intros ->. apply resp2info_ret. exists v, a, VNone, VNone.
    do 4 (split; [done|]).
    destruct (normalized_lookup resp a VNone) as (H1 & H2 & H3 & _).
    symmetry. unfold normalized at 1.
    by rewrite (insert_id _ "state"), (insert_id _ "ip"), (insert_id _ "server").
  - intros x ->. by rewrite resp2info_unfold, Hn', Ha, Hsrv.
Qed.
End Success.



Lemma resp2info_again_witness :
  Sample.resource !! "network" = Some (VStr "192.0.2.123/32")
  ∧ ip_network (VStr "192.0.2.123/32") = Some "192.0.2.123"
  ∧ Sample.resource !! "server" = Some (Service.server_ref (VStr "srv-1"))
  ∧ uuid_of (Service.server_ref (VStr "srv-1")) = Some (VStr "srv-1")
  ∧ _resp2info (normalized Sample.resource "192.0.2.123" (VStr "srv-1"))
    = Raise TypeError.
Proof.
  do 4 (split; [vm_compute; reflexivity|]).
  refine (proj2 (proj2 (resp2info_again Sample.resource
                          (VStr "192.0.2.123/32") "192.0.2.123"
                          (Service.server_ref (VStr "srv-1")) (VStr "srv-1")
                          _ _ _ _)) "srv-1" eq_refl);
    vm_compute; reflexivity.
Defined.

(** ** What a run can report and raise *)

Section Reports.
Context {W : Type} `{!CloudscaleBase W} `{!Ipaddress}.
Implicit Types (m : machine W) (p : P.t) (i r : dict).


Lemma store_cases m w c resp :
  (∃ i, _resp2info resp = Ret i ∧ store m w c resp = (Ret tt, after m w c i))
  ∨ (∃ e, _resp2info resp = Raise e
          ∧ store m w c resp = (Raise e, after m w c (info m))).
Proof.
  unfold store. destruct (resp2info_ret_or_raise resp) as [[i Hr]|[e Hr]];
    rewrite Hr; eauto.
Qed.

Lemma reportable_state i :
  reportable i →
  ∃ cur : lifecycle, i !! "state" = Some (VStr (lifecycle_str cur)).
Proof.
  intros [(Hs & _)|[->|(a & ->)]].
  - by exists present.
  - exists absent. apply lookup_singleton_eq.
  - exists absent. apply lookup_insert_eq.
Qed.

Lemma reportable_present_ip i :
  reportable i → i !! "state" = Some (VStr "present") →
  ∃ a, i !! "ip" = Some (VStr a).
Proof.
  intros [(_ & Ha & _)|[->|(a & ->)]] Hs; [done| |].
  - by rewrite lookup_singleton_eq in Hs.
  - by rewrite lookup_insert_eq in Hs.
Qed.

Lemma reportable_ip i v :
  reportable i → i !! "ip" = Some v → ∃ a, v = VStr a.
Proof.
  intros [(_ & (a & Ha) & _)|[->|(a & ->)]] Hv.
  - rewrite Ha in Hv. injection Hv as <-. by exists a.
  - by rewrite lookup_singleton_ne in Hv.
  - rewrite lookup_insert_ne, lookup_singleton_eq in Hv by done.
    injection Hv as <-. by exists a.
Qed.

Lemma reportable_normalized resp a u : reportable (normalized resp a u).
Proof.
  destruct (normalized_lookup resp a u) as (H1 & H2 & H3 & _).
  left. split; [done|]. split; [by exists a|by exists u].
Qed.

(** [__init__] returns or fails or raises; what it leaves is reportable,
    and what it raises the mapper raised. *)
Lemma init_cases p m :
  (∃ m', __init__ p m = (Ret tt, m') ∧ reportable (info m'))
  ∨ (∃ msg m', __init__ p m = (Fail msg, m'))
  ∨ (∃ e m' resp, __init__ p m = (Raise e, m') ∧ _resp2info resp = Raise e).
Proof.
  rewrite init_unfold. destruct (truthy_str (P.ip p)) eqn:Ht.
  - apply truthy_str_some in Ht as (a & -> & _). simpl.
    destruct (_get _ _) as [[msg|[resp|]] w].
    + right. left. eauto.
    + destruct (bool_decide (resp = ∅)).
      * left. eexists. split; [done|]. right. right. by exists a.
      * destruct (store_cases (reset m) w (Get ("floating-ips/" ++ a)) resp)
          as [(i & Hr & ->)|(e & Hr & ->)].
        -- left. eexists. split; [done|]. simpl.
           apply resp2info_ret in Hr as (? & ? & ? & ? & _ & _ & _ & _ & ->).
           apply reportable_normalized.
        -- right. right. eauto.
    + left. eexists. split; [done|]. right. right. by exists a.
  - left. eexists. split; [done|]. right. by left.
Qed.

(** Actions keep [info] reportable, and raise only what the mapper
    raised. *)
Lemma perform_cases cs p m o m' :
  reportable (info m) →
  info m !! "state" = Some cs →
  perform (select_action cs (P.state p) (server_of (info m)) (P.server p))
    p m = (o, m') →
  match o with
  | Ret _ => reportable (info m')
  | Raise e => ∃ resp, _resp2info resp = Raise e
  | _ => True
  end.
Proof.
  intros Hrep Hs.
  destruct (select_action _ _ _ _) eqn:Ha;
    unfold perform, mbind, M_mbind, M_bind, mret, M_ret.
  - by intros [= <- <-].
  - rewrite request_floating_ip_unfold. destruct (truthy_int _).
    + destruct (_post _ _ _) as [[msg|resp] w]; [by intros [= <- <-]|].
      destruct (store_cases m w (Post "floating-ips" (request_data p)) resp)
        as [(i & Hr & ->)|(e & Hr & ->)]; intros [= <- <-].
      * simpl. apply resp2info_ret in Hr as (? & ? & ? & ? & _ & _ & _ & _ & ->).
        apply reportable_normalized.
      * eauto.
    + by intros [= <- <-].
  - assert (Hp : cs = VStr "present").
    { unfold select_action in Ha. destruct cs; simpl in Ha; try done.
      repeat case_match; try done.
      match goal with H : _ && _ = true |- _ =>
        apply andb_true_iff in H as [H _]; apply String.eqb_eq in H end.
      by subst. }
    subst cs. destruct (reportable_present_ip _ Hrep Hs) as (a & Hip).
    rewrite release_floating_ip_unfold, Hip.
    destruct (_delete _ _) as [[msg|[]] w]; intros [= <- <-]; [done|].
    simpl. right. right. by exists a.
  - rewrite update_floating_ip_unfold. destruct (truthy_str _).
    + destruct (_post _ _ _) as [[msg|resp] w]; [by intros [= <- <-]|].
      destruct (store_cases m w
                  (Post ("floating-ips/" ++ format_s (P.ip p)) (update_data p))
                  resp)
        as [(i & Hr & ->)|(e & Hr & ->)]; intros [= <- <-].
      * simpl. apply resp2info_ret in Hr as (? & ? & ? & ? & _ & _ & _ & _ & ->).
        apply reportable_normalized.
      * eauto.
    + by intros [= <- <-].
Qed.

(** The reconciliation on a reportable record. *)
Lemma reconcile_cases check p m o m' :
  reportable (info m) →
  main_reconcile check p m = (o, m') →
  match o with
  | Ret _ => False
  | Exit _ out => reportable out
  | Raise e => ∃ resp, _resp2info resp = Raise e
  | Fail _ => True
  end.
Proof.
  intros Hrep. destruct (reportable_state _ Hrep) as (cur & Hs).
  destruct check.
  - rewrite (run_check _ _ _ Hs). by intros [= <- <-].
  - rewrite (run_real _ _ _ Hs). unfold mbind at 1. unfold M_mbind, M_bind at 1.
    destruct (perform _ p m) as [o1 m1] eqn:Hp.
    pose proof (perform_cases _ _ _ _ _ Hrep Hs Hp) as Hc.
    destruct o1; intros [= <- <-]; try done.
    by apply perform_no_exit in Hp.
Qed.


(** X11.  Every record [main] reports is of one of three shapes: present,
    with an address and a server entry; the bare state absent; or the state
    absent with the address that was asked for.  This holds in check mode
    and after every action. *)
Theorem main_reports_reportable check p m c out m' :
  main check p m = (Exit c out, m') → reportable out.
Proof.
  rewrite main_unfold.
  destruct (init_cases p m)
    as [(m1 & Hi & Hrep)|[(msg & m1 & Hi)|(e1 & m1 & resp & Hi & Hr)]];
    rewrite Hi; [|done..].
  intros Hm. exact (reconcile_cases _ _ _ _ _ Hrep Hm).
Qed.
End Reports.


Lemma main_reports_reportable_witness :
  main false Sample.release (Sample.boot Sample.service)
    = (Exit true (<["state" := VStr "absent"]> {["ip" := VStr "192.0.2.123"]}),
       snd (main false Sample.release (Sample.boot Sample.service)))
  ∧ reportable (<["state" := VStr "absent"]> {["ip" := VStr "192.0.2.123"]}).
Proof.
  split; [vm_compute; reflexivity|].
  apply (main_reports_reportable false Sample.release
           (Sample.boot Sample.service) true
           (<["state" := VStr "absent"]> {["ip" := VStr "192.0.2.123"]})
           (snd (main false Sample.release (Sample.boot Sample.service)))).
  vm_compute; reflexivity.
Defined.
